(** * logistics-wizard: the API application initializer

    A shallow embedding of [server/web/__init__.py]: the Flask application
    factory [create_app], its three error handlers, and the Service
    Discovery shutdown routines [deregister_app], [destroy_app] and the
    signal handler [exit_app].

    Python code that mutates process state, logs, or raises is written in a
    state-and-exception monad [M] over an explicit [World].  Collaborators
    that live outside this module (builtins, [server.exceptions],
    [server.web.utils], the [ServicePublisher] class) are interfaces. *)

From stdpp Require Import gmap strings list fin_maps pretty.
From Stdlib Require Import ZArith.

Local Open Scope string_scope.
Local Open Scope Z_scope.

(** ** Python values and exceptions *)

(** Values that [json.loads] can produce and [json.dumps] can consume. *)
#[local] Set Warnings "-register-all".
Inductive PyVal : Type :=
| VNone
| VBool (b : bool)
| VInt (n : Z)
| VStr (s : string)
| VList (xs : list PyVal)
| VDict (kvs : list (string * PyVal)).
#[local] Set Warnings "+register-all".

(** The closed set of error kinds an [APIException] instance can have (the
    class of the instance). *)
Inductive ErrorKind : Type :=
| ValidationError
| NotFoundError
| AuthenticationError
| InternalError.

(** An instance of [server.exceptions.APIException] or of a subclass: the
    attributes this module reads. *)
Record APIException : Type := {
  kind : ErrorKind;
  status_code : Z;
  message : string;
  internal_details : option string
}.

(** A raised Python exception.  [isinstance(e, APIException)] is the test
    for the first constructor. *)
Inductive PyException : Type :=
| ExcAPI (a : APIException)
| ExcSystemExit (code : Z)
| ExcOther (cls : string) (text : string).

Definition isinstance_APIException (e : PyException) : bool :=
  match e with
  | ExcAPI _ => true
  | _ => false
  end.

(** The result of running a piece of Python: a value or a raised
    exception. *)
Inductive Outcome (A : Type) : Type :=
| Ok (a : A)
| Raise (e : PyException).
Arguments Ok {A} a.
Arguments Raise {A} e.

Definition raised {A} (o : Outcome A) : bool :=
  match o with
  | Ok _ => false
  | Raise _ => true
  end.

(** ** Process state *)

(** Object references. *)
Abbreviation loc := positive.

(** A [ServicePublisher] object: its constructor arguments and the
    [registered] attribute. *)
Record ServicePublisher : Type := {
  sp_name : string;
  sp_ttl : Z;
  sp_status : string;
  sp_endpoint : PyVal;
  sp_protocol : string;
  sp_tags : list string;
  sp_url : PyVal;
  sp_auth_token : PyVal;
  registered : bool
}.

Inductive Signal : Type := SIGINT | SIGTERM.

#[global] Instance Signal_eq_dec : EqDecision Signal.
Proof. solve_decision. Defined.

#[global] Instance Signal_countable : Countable Signal.
Proof.
  refine (inj_countable'
            (fun s => match s with SIGINT => false | SIGTERM => true end)
            (fun b : bool => if b then SIGTERM else SIGINT) _).
  intros []; reflexivity.
Defined.

(** What can be installed as a signal handler or an exit hook: the closure
    [exit_app] over its captured [publisher], and [destroy_app] with the
    argument given to [atexit.register].  A publisher is [None] or a
    reference. *)
Inductive Callback : Type :=
| CbExitApp (publisher : option loc)
| CbDestroyApp (publisher : option loc).

Record Config : Type := {
  ENVIRONMENT : string;
  SD_STATUS : string
}.

Record Request : Type := {
  path : string;
  headers : gmap string string
}.

(** Observable effects, in the order they happen. *)
Inductive Event : Type :=
| EvTrack
| EvLogError (exc : APIException)
| EvLogException (e : PyException)
| EvPrint (s : string)
| EvRegisterService (l : loc) (heartbeat : bool)
| EvDeregisterService (l : loc).

Record World : Type := {
  config : Config;
  environ : gmap string string;
  request : Request;
  heap : gmap loc ServicePublisher;
  signal_handlers : gmap Signal Callback;
  atexit_hooks : list Callback;
  trace : list Event
}.

Definition set_heap (h : gmap loc ServicePublisher) (w : World) : World :=
  {| config := config w; environ := environ w; request := request w;
     heap := h; signal_handlers := signal_handlers w;
     atexit_hooks := atexit_hooks w; trace := trace w |}.

Definition set_signal_handlers (t : gmap Signal Callback) (w : World) : World :=
  {| config := config w; environ := environ w; request := request w;
     heap := heap w; signal_handlers := t;
     atexit_hooks := atexit_hooks w; trace := trace w |}.

Definition set_atexit_hooks (hs : list Callback) (w : World) : World :=
  {| config := config w; environ := environ w; request := request w;
     heap := heap w; signal_handlers := signal_handlers w;
     atexit_hooks := hs; trace := trace w |}.

Definition set_trace (t : list Event) (w : World) : World :=
  {| config := config w; environ := environ w; request := request w;
     heap := heap w; signal_handlers := signal_handlers w;
     atexit_hooks := atexit_hooks w; trace := t |}.

(** ** The monad of Python statements *)

Definition M (A : Type) : Type := World -> Outcome A * World.

Definition ret {A} (a : A) : M A := fun w => (Ok a, w).

Definition bind {A B} (c : M A) (k : A -> M B) : M B :=
  fun w =>
    match c w with
    | (Ok a, w') => k a w'
    | (Raise e, w') => (Raise e, w')
    end.

Definition raise {A} (e : PyException) : M A := fun w => (Raise e, w).

(** Lift a computation that cannot touch the world. *)
Definition lift {A} (o : Outcome A) : M A := fun w => (o, w).

Definition emit (ev : Event) : M unit :=
  fun w => (Ok tt, set_trace (trace w ++ [ev]) w).

Definition get {A} (f : World -> A) : M A := fun w => (Ok (f w), w).

#[global] Instance M_ret : MRet M := @ret.
#[global] Instance M_bind : MBind M := fun A B k c => bind c k.

Definition outcome_of {A} (r : Outcome A * World) : Outcome A := fst r.
Definition world_of {A} (r : Outcome A * World) : World := snd r.

(** ** Collaborators outside this module *)

(** Builtins and the [json] module.  [unicode(e)] can raise, as it does in
    Python 2 on a message that is a byte string with non-ASCII bytes. *)
Class Builtins : Type := {
  unicode : PyException -> Outcome string;
  json_dumps : gmap string PyVal -> string;
  json_loads : string -> Outcome PyVal
}.

(** [server.exceptions]: the call [APIException(message,
    internal_details=...)]. *)
Class ServerExceptions : Type := {
  APIException_new : string -> option string -> APIException
}.

(** [server.web.utils]. *)
Class WebUtils : Type := {
  compose_error : APIException -> PyException -> gmap string PyVal;
  request_wants_json : Request -> bool
}.

(** [bluemix_service_discovery.service_publisher.ServicePublisher]: the
    constructor and the two methods this module calls.  A method works on
    the object store and may raise. *)
Class ServiceDiscovery : Type := {
  ServicePublisher_new :
    string -> Z -> string -> PyVal -> string -> list string ->
    PyVal -> PyVal -> ServicePublisher;
  register_service_method :
    loc -> bool -> gmap loc ServicePublisher ->
    Outcome unit * gmap loc ServicePublisher;
  deregister_service_method :
    loc -> gmap loc ServicePublisher ->
    Outcome unit * gmap loc ServicePublisher
}.

(** ** Subscripting and environment access *)

Fixpoint assoc_get (k : string) (kvs : list (string * PyVal)) : option PyVal :=
  match kvs with
  | [] => None
  | (k', v) :: rest => if decide (k = k') then Some v else assoc_get k rest
  end.

(** [v[k]] for a string key. *)
Definition getitem_key (v : PyVal) (k : string) : Outcome PyVal :=
  match v with
  | VDict kvs =>
      match assoc_get k kvs with
      | Some x => Ok x
      | None => Raise (ExcOther "KeyError" k)
      end
  | _ => Raise (ExcOther "TypeError" k)
  end.

(** [v[0]]. *)
Definition getitem_0 (v : PyVal) : Outcome PyVal :=
  match v with
  | VList (x :: _) => Ok x
  | VList [] => Raise (ExcOther "IndexError" "list index out of range")
  | VStr (String c _) => Ok (VStr (String c EmptyString))
  | VStr EmptyString => Raise (ExcOther "IndexError" "string index out of range")
  | VDict _ => Raise (ExcOther "KeyError" "0")
  | _ => Raise (ExcOther "TypeError" "0")
  end.

(** [env[k]]. *)
Definition env_getitem (k : string) : M string :=
  fun w =>
    match environ w !! k with
    | Some v => (Ok v, w)
    | None => (Raise (ExcOther "KeyError" k), w)
    end.

(** ** Responses *)

Record Response : Type := {
  body : string;
  status : Z;
  mimetype : string
}.

(** The dict literal [{'code': c, 'message': m}]. *)
Definition code_message_dict (c : Z) (m : string) : gmap string PyVal :=
  <["code" := VInt c]> (<["message" := VStr m]> ∅).

(** ** The Flask application object *)

Inductive View : Type := ViewRoot | ViewStaticProxy.

Inductive Blueprint : Type :=
| demos_v1_blueprint
| shipments_v1_blueprint
| distribution_centers_v1_blueprint
| retailers_v1_blueprint
| products_v1_blueprint.

Inductive BeforeRequest : Type := setup_auth_from_request.

(** What [errorhandler] is keyed on: the class [Exception] or a status
    code. *)
Inductive ErrorKey : Type :=
| ForException
| ForCode (code : Z).

Inductive ErrorHandler : Type :=
| HExceptionHandler
| HBadRequestHandler
| HNotFoundHandler.

Record CORSOptions : Type := {
  origins : list string;
  supports_credentials : bool
}.

Record Flask : Type := {
  import_name : string;
  static_folder : string;
  debug : bool;
  url_rules : list (string * View);
  cors : option CORSOptions;
  blueprints : list (Blueprint * string);
  before_request_funcs : list BeforeRequest;
  error_handlers : list (ErrorKey * ErrorHandler)
}.

Definition Flask_new (name folder : string) : Flask :=
  {| import_name := name; static_folder := folder; debug := false;
     url_rules := []; cors := None; blueprints := [];
     before_request_funcs := []; error_handlers := [] |}.

Definition route (rule : string) (v : View) (app : Flask) : Flask :=
  {| import_name := import_name app; static_folder := static_folder app;
     debug := debug app; url_rules := url_rules app ++ [(rule, v)];
     cors := cors app; blueprints := blueprints app;
     before_request_funcs := before_request_funcs app;
     error_handlers := error_handlers app |}.

Definition CORS (o : list string) (creds : bool) (app : Flask) : Flask :=
  {| import_name := import_name app; static_folder := static_folder app;
     debug := debug app; url_rules := url_rules app;
     cors := Some {| origins := o; supports_credentials := creds |};
     blueprints := blueprints app;
     before_request_funcs := before_request_funcs app;
     error_handlers := error_handlers app |}.

Definition set_debug (d : bool) (app : Flask) : Flask :=
  {| import_name := import_name app; static_folder := static_folder app;
     debug := d; url_rules := url_rules app; cors := cors app;
     blueprints := blueprints app;
     before_request_funcs := before_request_funcs app;
     error_handlers := error_handlers app |}.

Definition register_blueprint (b : Blueprint) (url_prefix : string) (app : Flask) : Flask :=
  {| import_name := import_name app; static_folder := static_folder app;
     debug := debug app; url_rules := url_rules app; cors := cors app;
     blueprints := blueprints app ++ [(b, url_prefix)];
     before_request_funcs := before_request_funcs app;
     error_handlers := error_handlers app |}.

Definition before_request (f : BeforeRequest) (app : Flask) : Flask :=
  {| import_name := import_name app; static_folder := static_folder app;
     debug := debug app; url_rules := url_rules app; cors := cors app;
     blueprints := blueprints app;
     before_request_funcs := before_request_funcs app ++ [f];
     error_handlers := error_handlers app |}.

Definition errorhandler (k : ErrorKey) (h : ErrorHandler) (app : Flask) : Flask :=
  {| import_name := import_name app; static_folder := static_folder app;
     debug := debug app; url_rules := url_rules app; cors := cors app;
     blueprints := blueprints app;
     before_request_funcs := before_request_funcs app;
     error_handlers := error_handlers app ++ [(k, h)] |}.

(** ** Error handlers (closures of [create_app]) *)

Section Handlers.
Context {B : Builtins} {X : ServerExceptions} {U : WebUtils}.

(** [current_app.logger.error(exc)] *)
Definition logger_error (exc : APIException) : M unit :=
  emit (EvLogError exc).

(** [current_app.logger.exception(e)] *)
Definition logger_exception (e : PyException) : M unit :=
  emit (EvLogException e).

(** The exception the handler reports: a fresh generic [APIException]
    for a failure of another class, whose [internal_details] is
    [unicode(e)], and the failure itself otherwise.  When [unicode(e)]
    raises, so does the wrapping. *)
Definition wrap_exception (e : PyException) : Outcome APIException :=
  match e with
  | ExcAPI a => Ok a
  | _ =>
      match unicode e with
      | Ok text => Ok (APIException_new "Server Error" (Some text))
      | Raise x => Raise x
      end
  end.

Definition exception_handler (e : PyException) : M Response :=
  exc ← lift (wrap_exception e);
  logger_error exc;;
  mret {| body := json_dumps (compose_error exc e);
          status := status_code exc;
          mimetype := "application/json" |}.

(** Returns [None] (Python's implicit return) on the [else] branch. *)
Definition not_found_handler (e : PyException) : M (option Response) :=
  logger_exception e;;
  wants ← get (fun w => request_wants_json (request w));
  if (wants : bool) then
    let code := 404 in
    mret (Some {| body := json_dumps (code_message_dict code "Resource not found.");
                  status := code;
                  mimetype := "application/json" |})
  else
    mret None.

Definition bad_request_handler (e : PyException) : M Response :=
  logger_exception e;;
  let code := 400 in
  mret {| body := json_dumps (code_message_dict code "Bad request.");
          status := code;
          mimetype := "application/json" |}.

(** Calling a registered handler. *)
Definition run_error_handler (h : ErrorHandler) (e : PyException) : M (option Response) :=
  match h with
  | HExceptionHandler => r ← exception_handler e; mret (Some r)
  | HBadRequestHandler => r ← bad_request_handler e; mret (Some r)
  | HNotFoundHandler => not_found_handler e
  end.
End Handlers.

(** ** Service Discovery lifecycle *)

Section Lifecycle.
Context {B : Builtins} {SD : ServiceDiscovery}.

(** Run a method of the publisher class on the object store. *)
Definition call_method
    (f : gmap loc ServicePublisher -> Outcome unit * gmap loc ServicePublisher)
    : M unit :=
  fun w => let '(o, h) := f (heap w) in (o, set_heap h w).

(** [publisher.register_service(heartbeat)] *)
Definition register_service (l : loc) (heartbeat : bool) : M unit :=
  emit (EvRegisterService l heartbeat);;
  call_method (register_service_method l heartbeat).

(** [publisher.deregister_service()] *)
Definition deregister_service (l : loc) : M unit :=
  emit (EvDeregisterService l);;
  call_method (deregister_service_method l).

(** [publisher.registered] *)
Definition getattr_registered (l : loc) : M bool :=
  fun w =>
    match heap w !! l with
    | Some o => (Ok (registered o), w)
    | None => (Raise (ExcOther "AttributeError" "registered"), w)
    end.

Definition print (s : string) : M unit := emit (EvPrint s).

Definition deregister_app (publisher : option loc) : M unit :=
  match publisher with
  | None => mret tt
  | Some l =>
      r ← getattr_registered l;
      if (r : bool) then
        print "Deregistering service from Service Discovery";;
        deregister_service l
      else
        mret tt
  end.

Definition destroy_app (publisher : option loc) : M unit :=
  deregister_app publisher.

(** [sys.exit(code)] raises [SystemExit]. *)
Definition sys_exit (code : Z) : M unit := raise (ExcSystemExit code).

(** The closure [exit_app] of [create_app], over its [publisher]. *)
Definition exit_app (publisher : option loc) : M unit :=
  deregister_app publisher;;
  sys_exit 0.

(** [signal(sig, handler)] *)
Definition signal (sig : Signal) (cb : Callback) : M unit :=
  fun w => (Ok tt, set_signal_handlers (<[sig := cb]> (signal_handlers w)) w).

(** [atexit.register(destroy_app, publisher)] *)
Definition atexit_register (cb : Callback) : M unit :=
  fun w => (Ok tt, set_atexit_hooks (atexit_hooks w ++ [cb]) w).

(** Constructing an object puts it in the store under a fresh
    reference. *)
Definition new_object (o : ServicePublisher) : M loc :=
  fun w =>
    let l := fresh (dom (heap w)) in
    (Ok l, set_heap (<[l := o]> (heap w)) w).

(** The guard of the registration block. *)
Definition discovery_enabled (w : World) : bool :=
  bool_decide (SD_STATUS (config w) = "ON")
  && bool_decide (is_Some (environ w !! "VCAP_APPLICATION")).

(** The part of [create_app] before the registration block. *)
Definition configured_app (cfg : Config) : Flask :=
  let app := Flask_new "logistics_wizard" "ui_dist" in
  let app := route "/" ViewRoot app in
  let app := route "/<path:path>" ViewStaticProxy app in
  let app := CORS [".*"] true app in
  let app := if decide (ENVIRONMENT cfg = "DEV") then set_debug true app else app in
  let app := register_blueprint demos_v1_blueprint "/api/v1" app in
  let app := register_blueprint shipments_v1_blueprint "/api/v1" app in
  let app := register_blueprint distribution_centers_v1_blueprint "/api/v1" app in
  let app := register_blueprint retailers_v1_blueprint "/api/v1" app in
  let app := register_blueprint products_v1_blueprint "/api/v1" app in
  let app := before_request setup_auth_from_request app in
  let app := errorhandler ForException HExceptionHandler app in
  let app := errorhandler (ForCode 400) HBadRequestHandler app in
  let app := errorhandler (ForCode 404) HNotFoundHandler app in
  app.

(** "Create service publisher": the credentials lookup and the
    [ServicePublisher(...)] call, arguments evaluated left to right. *)
Definition create_service_publisher : M loc :=
  vcap_services ← env_getitem "VCAP_SERVICES";
  services ← lift (json_loads vcap_services);
  sd ← lift (getitem_key services "service_discovery");
  sd0 ← lift (getitem_0 sd);
  creds ← lift (getitem_key sd0 "credentials");
  vcap_application ← env_getitem "VCAP_APPLICATION";
  application ← lift (json_loads vcap_application);
  uris ← lift (getitem_key application "application_uris");
  uri ← lift (getitem_0 uris);
  lw_env ← env_getitem "LOGISTICS_WIZARD_ENV";
  url ← lift (getitem_key creds "url");
  auth_token ← lift (getitem_key creds "auth_token");
  new_object
    (ServicePublisher_new "lw-controller" 300 "UP" uri "http"
       ["logistics-wizard"; "front-end"; lw_env] url auth_token).

(** The registration block: create the publisher, register it, then
    install the shutdown hooks. *)
Definition register_with_discovery : M unit :=
  publisher ← create_service_publisher;
  register_service publisher true;;
  signal SIGTERM (CbExitApp (Some publisher));;
  signal SIGINT (CbExitApp (Some publisher));;
  atexit_register (CbDestroyApp (Some publisher)).

Definition create_app : M Flask :=
  emit EvTrack;;
  cfg ← get config;
  let logistics_wizard := configured_app cfg in
  enabled ← get discovery_enabled;
  (if (enabled : bool) then register_with_discovery else mret tt);;
  mret logistics_wizard.

(** ** Shutdown triggers *)

Definition run_callback (cb : Callback) : M unit :=
  match cb with
  | CbExitApp p => exit_app p
  | CbDestroyApp p => destroy_app p
  end.

(** Shutdown triggers firing one after the other: each callback starts in
    the world the previous one left, whatever its outcome was. *)
Fixpoint run_callbacks (cbs : list Callback) (w : World) : World :=
  match cbs with
  | [] => w
  | cb :: rest => run_callbacks rest (snd (run_callback cb w))
  end.

(** The publisher a callback was built over. *)
Definition callback_publisher (cb : Callback) : option loc :=
  match cb with
  | CbExitApp p => p
  | CbDestroyApp p => p
  end.

(** The world a registered publisher's [deregister_app] ends in: the
    message printed, the call recorded, and the store as the method left
    it. *)
Definition after_deregister (l : loc) (w : World) : World :=
  set_heap (snd (deregister_service_method l (heap w)))
    (set_trace (trace w ++ [EvPrint "Deregistering service from Service Discovery";
                            EvDeregisterService l]) w).
End Lifecycle.

(** Number of [deregister_service] calls in a trace. *)
Definition is_deregister (ev : Event) : bool :=
  match ev with
  | EvDeregisterService _ => true
  | _ => false
  end.

Definition deregister_calls (t : list Event) : nat :=
  length (filter (fun ev => is_deregister ev = true) t).

(** The [registered] attribute of the object a publisher refers to;
    [false] for [None]. *)
Definition is_registered (h : gmap loc ServicePublisher) (publisher : option loc) : bool :=
  match publisher with
  | None => false
  | Some l =>
      match h !! l with
      | Some o => registered o
      | None => false
      end
  end.

(** A computation that leaves the signal table and the exit hooks alone. *)
Definition keeps_hooks {A} (c : M A) : Prop :=
  forall w,
    signal_handlers (world_of (c w)) = signal_handlers w
    /\ atexit_hooks (world_of (c w)) = atexit_hooks w.

(** What the interpreter exits with when an exception reaches the top
    level: the code of a [SystemExit], 1 for anything else. *)
Definition process_exit_code (e : PyException) : Z :=
  match e with
  | ExcSystemExit c => c
  | _ => 1
  end.

(** ** Collaborators this repository defines elsewhere *)

(** Modelled from the spec: [server.exceptions.APIException] is not part of
    this module.  Section 4.1: a failure outside the taxonomy is wrapped as
    [InternalError], status 500, with the given message and
    [internal_details]. *)
Definition APIException_from_spec (msg : string) (details : option string) : APIException :=
  {| kind := InternalError; status_code := 500;
     message := msg; internal_details := details |}.

(** Modelled from the spec: [server.web.utils.compose_error] is not part of
    this module.  Section 3: the error response body is derived from the
    classified error as [{code, message}]. *)
Definition compose_error_from_spec (exc : APIException) (e : PyException) : gmap string PyVal :=
  code_message_dict (status_code exc) (message exc).

#[local] Instance spec_exceptions : ServerExceptions :=
  {| APIException_new := APIException_from_spec |}.

Definition spec_web_utils (wants : Request -> bool) : WebUtils :=
  {| compose_error := compose_error_from_spec; request_wants_json := wants |}.

(** ** Concrete collaborators and worlds for examples *)

Module Fixture.

Definition services_json : string := "SERVICES".
Definition application_json : string := "APPLICATION".

Definition services_value : PyVal :=
  VDict [("service_discovery",
          VList [VDict [("credentials",
                         VDict [("url", VStr "https://sd.example");
                                ("auth_token", VStr "secret")])]])].

Definition application_value : PyVal :=
  VDict [("application_uris", VList [VStr "lw.example"])].

(** A decoder that knows the two documents of the example
    environment. *)
Definition loads (s : string) : Outcome PyVal :=
  if decide (s = services_json) then Ok services_value
  else if decide (s = application_json) then Ok application_value
  else Raise (ExcOther "ValueError" s).

(** Whether every byte of a byte string is ASCII. *)
Fixpoint is_ascii_text (s : string) : bool :=
  match s with
  | EmptyString => true
  | String c rest => (Ascii.nat_of_ascii c <? 128)%nat && is_ascii_text rest
  end.

Definition decode_error : PyException :=
  ExcOther "UnicodeDecodeError" "'ascii' codec can't decode byte: ordinal not in range(128)".

(** [unicode(e)] as Python 2 computes it for an exception with one
    byte-string message: the message decoded as ASCII, and
    [UnicodeDecodeError] when a byte is not ASCII. *)
Definition render (e : PyException) : Outcome string :=
  match e with
  | ExcAPI a => if is_ascii_text (message a) then Ok (message a) else Raise decode_error
  | ExcSystemExit code => Ok (pretty code)
  | ExcOther _ text => if is_ascii_text text then Ok text else Raise decode_error
  end.

(** The UTF-8 bytes of "café". *)
Definition cafe_bytes : string :=
  "caf" +:+ String (Ascii.ascii_of_nat 195) (String (Ascii.ascii_of_nat 169) EmptyString).

Definition quote : string := String (Ascii.ascii_of_nat 34) EmptyString.

(** A JSON encoder in the style of [json.dumps]; keys in the order the
    map enumerates them. *)
Fixpoint encode (v : PyVal) : string :=
  match v with
  | VNone => "null"
  | VBool true => "true"
  | VBool false => "false"
  | VInt n => pretty n
  | VStr s => quote +:+ s +:+ quote
  | VList xs =>
      "[" +:+
      (fix items (xs : list PyVal) : string :=
         match xs with
         | [] => ""
         | [x] => encode x
         | x :: rest => encode x +:+ ", " +:+ items rest
         end) xs +:+ "]"
  | VDict kvs =>
      "{" +:+
      (fix members (kvs : list (string * PyVal)) : string :=
         match kvs with
         | [] => ""
         | [(k, x)] => quote +:+ k +:+ quote +:+ ": " +:+ encode x
         | (k, x) :: rest =>
             quote +:+ k +:+ quote +:+ ": " +:+ encode x +:+ ", " +:+ members rest
         end) kvs +:+ "}"
  end.

Definition dumps (d : gmap string PyVal) : string :=
  encode (VDict (map_to_list d)).

#[local] Instance builtins : Builtins :=
  {| unicode := render; json_dumps := dumps; json_loads := loads |}.

Definition accepts_json (r : Request) : bool :=
  bool_decide (headers r !! "Accept" = Some "application/json").

Definition new_publisher (name : string) (ttl : Z) (st : string)
    (endpoint : PyVal) (protocol : string) (tags : list string)
    (url token : PyVal) : ServicePublisher :=
  {| sp_name := name; sp_ttl := ttl; sp_status := st;
     sp_endpoint := endpoint; sp_protocol := protocol; sp_tags := tags;
     sp_url := url; sp_auth_token := token; registered := false |}.

Definition set_registered (b : bool) (o : ServicePublisher) : ServicePublisher :=
  {| sp_name := sp_name o; sp_ttl := sp_ttl o; sp_status := sp_status o;
     sp_endpoint := sp_endpoint o; sp_protocol := sp_protocol o;
     sp_tags := sp_tags o; sp_url := sp_url o;
     sp_auth_token := sp_auth_token o; registered := b |}.

Definition unavailable : PyException :=
  ExcOther "RegistryUnavailable" "registry unreachable".

(** A registry that answers: both methods succeed and flip the flag. *)
#[local] Instance healthy_registry : ServiceDiscovery :=
  {| ServicePublisher_new := new_publisher;
     register_service_method l _ h := (Ok tt, alter (set_registered true) l h);
     deregister_service_method l h := (Ok tt, alter (set_registered false) l h) |}.

(** A registry that cannot be reached: both methods raise; deregistering
    still clears the flag. *)
Definition down_registry : ServiceDiscovery :=
  {| ServicePublisher_new := new_publisher;
     register_service_method l _ h := (Raise unavailable, h);
     deregister_service_method l h :=
       (Raise unavailable, alter (set_registered false) l h) |}.

(** A registry whose [deregister_service] forgets to clear the flag. *)
Definition sticky_registry : ServiceDiscovery :=
  {| ServicePublisher_new := new_publisher;
     register_service_method l _ h := (Ok tt, alter (set_registered true) l h);
     deregister_service_method l h := (Ok tt, h) |}.

Definition json_request : Request :=
  {| path := "/nowhere"; headers := {["Accept" := "application/json"]} |}.

Definition html_request : Request :=
  {| path := "/nowhere"; headers := {["Accept" := "text/html"]} |}.

Definition a_publisher : ServicePublisher :=
  set_registered true
    (new_publisher "lw-controller" 300 "UP" (VStr "lw.example") "http"
       ["logistics-wizard"; "front-end"; "PROD"]
       (VStr "https://sd.example") (VStr "secret")).

(** A production process before [create_app]. *)
Definition prod_world : World :=
  {| config := {| ENVIRONMENT := "PROD"; SD_STATUS := "ON" |};
     environ := {["VCAP_SERVICES" := services_json;
                  "VCAP_APPLICATION" := application_json;
                  "LOGISTICS_WIZARD_ENV" := "PROD"]};
     request := json_request;
     heap := ∅; signal_handlers := ∅; atexit_hooks := []; trace := [] |}.

(** The same process serving a browser request. *)
Definition browser_world : World :=
  {| config := config prod_world; environ := environ prod_world;
     request := html_request;
     heap := ∅; signal_handlers := ∅; atexit_hooks := []; trace := [] |}.

(** A process whose publisher 1 exists but is not registered. *)
Definition unregistered_world : World :=
  {| config := config prod_world; environ := environ prod_world;
     request := json_request;
     heap := {[1%positive := set_registered false a_publisher]};
     signal_handlers := ∅; atexit_hooks := []; trace := [] |}.

(** A running process whose publisher 1 is registered. *)
Definition registered_world : World :=
  {| config := config prod_world; environ := environ prod_world;
     request := json_request;
     heap := {[1%positive := a_publisher]};
     signal_handlers := {[SIGTERM := CbExitApp (Some 1%positive);
                          SIGINT := CbExitApp (Some 1%positive)]};
     atexit_hooks := [CbDestroyApp (Some 1%positive)];
     trace := [] |}.

(** A process in the hosting environment whose service credentials are
    missing. *)
Definition bare_world : World :=
  {| config := config prod_world;
     environ := {["VCAP_APPLICATION" := application_json]};
     request := json_request;
     heap := ∅; signal_handlers := ∅; atexit_hooks := []; trace := [] |}.

(** A developer's machine: registration switched off. *)
Definition dev_world : World :=
  {| config := {| ENVIRONMENT := "DEV"; SD_STATUS := "OFF" |};
     environ := ∅;
     request := html_request;
     heap := ∅; signal_handlers := ∅; atexit_hooks := []; trace := [] |}.

End Fixture.

(** ** Worlds the registration block leads to *)

(** The world after the three hook installations for publisher [l]. *)
Definition hooks_armed (l : loc) (w : World) : World :=
  set_atexit_hooks (atexit_hooks w ++ [CbDestroyApp (Some l)])
    (set_signal_handlers
       (<[SIGINT := CbExitApp (Some l)]>
          (<[SIGTERM := CbExitApp (Some l)]> (signal_handlers w))) w).

(** ** A signal delivered during deregistration *)

Section Reentry.
Context {SD : ServiceDiscovery}.

(** [publisher.deregister_service()] during which a signal arrives before
    the method has touched the flag: the interpreter runs the installed
    handler inside the call; an exception the handler raises leaves the
    call, otherwise the method goes on. *)
Definition deregister_service_interrupted (l : loc) (handler : Callback) : M unit :=
  emit (EvDeregisterService l);;
  run_callback handler;;
  call_method (deregister_service_method l).

(** [deregister_app] whose [deregister_service] call is interrupted that
    way. *)
Definition deregister_app_interrupted (publisher : option loc) (handler : Callback) : M unit :=
  match publisher with
  | None => mret tt
  | Some l =>
      r ← getattr_registered l;
      if (r : bool) then
        print "Deregistering service from Service Discovery";;
        deregister_service_interrupted l handler
      else
        mret tt
  end.

(** A shutdown callback during whose deregistration another one fires. *)
Definition run_callback_interrupted (cb handler : Callback) : M unit :=
  match cb with
  | CbExitApp p => deregister_app_interrupted p handler;; sys_exit 0
  | CbDestroyApp p => deregister_app_interrupted p handler
  end.
End Reentry.

(** Number of [register_service] calls in a trace. *)
Definition is_register (ev : Event) : bool :=
  match ev with
  | EvRegisterService _ _ => true
  | _ => false
  end.

Definition register_calls (t : list Event) : nat :=
  length (filter (fun ev => is_register ev = true) t).

(** * Properties *)

Ltac py_unfold :=
  unfold mbind, M_bind, bind, mret, M_ret, ret, raise, lift, get, emit,
    outcome_of, world_of in *.

(** ** Dict literals *)

Lemma code_message_dict_lookup (c : Z) (m k : string) :
  code_message_dict c m !! k =
    if decide (k = "code") then Some (VInt c)
    else if decide (k = "message") then Some (VStr m)
    else None.
Proof.
  unfold code_message_dict.
  repeat case_decide; subst; simplify_map_eq; reflexivity.
Qed.

Lemma code_message_dict_dom (c : Z) (m : string) :
  dom (code_message_dict c m) = ({["code"; "message"]} : gset string).
Proof.
  unfold code_message_dict. rewrite !dom_insert_L, dom_empty_L. set_solver.
Qed.

(** ** Error handlers *)

Section HandlerFacts.
Context {B : Builtins}.

(** When [unicode(e)] returns, a failure that is not an [APIException] is
    answered with status 500 and the body that encodes exactly [{code: 500,
    message: "Server Error"}]; the response is the same for every such
    failure, so nothing of the failure's rendering ([internal_details])
    reaches the message field, while the logged exception does carry it. *)
Lemma exception_handler_generic_server_error
    (wants : Request -> bool) (e : PyException) (w : World) (text : string) :
  isinstance_APIException e = false ->
  unicode e = Ok text ->
  let handler := exception_handler (X := spec_exceptions) (U := spec_web_utils wants) in
  let d := code_message_dict 500 "Server Error" in
  let r := {| body := json_dumps d; status := 500;
              mimetype := "application/json" |} in
  outcome_of (handler e w) = Ok r
  /\ d !! "message" = Some (VStr "Server Error")
  /\ dom d = ({["code"; "message"]} : gset string)
  /\ (forall e' w' text',
        isinstance_APIException e' = false -> unicode e' = Ok text' ->
        outcome_of (handler e' w') = Ok r)
  /\ trace (world_of (handler e w)) =
       (trace w ++ [EvLogError (APIException_from_spec "Server Error" (Some text))])%list.
Proof.
  intros He Hu handler d r.
  assert (Hall : forall e' w' text',
             isinstance_APIException e' = false -> unicode e' = Ok text' ->
             outcome_of (handler e' w') = Ok r).
  { intros e' w' text' He' Hu'. subst handler.
    unfold exception_handler, wrap_exception. py_unfold.
    destruct e'; [discriminate | |]; rewrite Hu'; reflexivity. }
  split; [exact (Hall e w text He Hu) |].
  split; [subst d; rewrite code_message_dict_lookup; reflexivity |].
  split; [apply code_message_dict_dom |].
  split; [exact Hall |].
  subst handler. unfold exception_handler, wrap_exception. py_unfold.
  destruct e; [discriminate | |]; rewrite Hu; reflexivity.
Qed.

Context {X : ServerExceptions} {U : WebUtils}.

(** C7.  An [APIException] is reported as it is: it is the exception that
    is logged and composed, and the response status is its own
    [status_code]. *)
Theorem exception_handler_passes_api_exception
    (a : APIException) (w : World) :
  wrap_exception (ExcAPI a) = Ok a
  /\ exception_handler (ExcAPI a) w =
       (Ok {| body := json_dumps (compose_error a (ExcAPI a));
              status := status_code a;
              mimetype := "application/json" |},
        set_trace (trace w ++ [EvLogError a]) w).
Proof. split; reflexivity. Qed.

(** C2, where the code departs from it.  When [unicode(e)] raises on a
    failure that is not an [APIException], the handler raises that
    exception: no response is produced, with status 500 or any other, and
    nothing has been logged. *)
Theorem exception_handler_unrenderable_failure
    (e x : PyException) (w : World) :
  isinstance_APIException e = false ->
  unicode e = Raise x ->
  exception_handler e w = (Raise x, w).
Proof.
  intros He Hu. unfold exception_handler, wrap_exception. py_unfold.
  destruct e; [discriminate | |]; rewrite Hu; reflexivity.
Qed.

(** C4.  When the request wants JSON, the 404 handler answers with status
    404, JSON content type, and the body that encodes the dict with
    exactly the fields [code = 404] and [message = "Resource not
    found."]. *)
Theorem not_found_handler_json (e : PyException) (w : World) :
  request_wants_json (request w) = true ->
  let d := code_message_dict 404 "Resource not found." in
  outcome_of (not_found_handler e w) =
    Ok (Some {| body := json_dumps d; status := 404;
                mimetype := "application/json" |})
  /\ forall k : string,
       d !! k = if decide (k = "code") then Some (VInt 404)
                else if decide (k = "message") then Some (VStr "Resource not found.")
                else None.
Proof.
  intros Hw d. split.
  - unfold not_found_handler, outcome_of, mbind, M_bind, bind, get; simpl.
    rewrite Hw. reflexivity.
  - intros k. apply code_message_dict_lookup.
Qed.

(** C5.  When the request does not want JSON, the 404 handler logs the
    error and returns [None]: no response, hence no JSON 404 body, is
    produced. *)
Theorem not_found_handler_no_json (e : PyException) (w : World) :
  request_wants_json (request w) = false ->
  not_found_handler e w = (Ok None, set_trace (trace w ++ [EvLogException e]) w).
Proof.
  intros Hw.
  unfold not_found_handler, mbind, M_bind, bind, get; simpl.
  rewrite Hw. reflexivity.
Qed.

(** C6.  The 400 handler always answers with status 400, JSON content
    type, and the body that encodes the dict with exactly the fields
    [code = 400] and [message = "Bad request."], whatever the request
    is. *)
Theorem bad_request_handler_response (e : PyException) (w : World) :
  let d := code_message_dict 400 "Bad request." in
  let r := {| body := json_dumps d; status := 400;
              mimetype := "application/json" |} in
  outcome_of (bad_request_handler e w) = Ok r
  /\ (forall e' w', outcome_of (bad_request_handler e' w') = Ok r)
  /\ forall k : string,
       d !! k = if decide (k = "code") then Some (VInt 400)
                else if decide (k = "message") then Some (VStr "Bad request.")
                else None.
Proof.
  intros d r. repeat split.
  intros k. apply code_message_dict_lookup.
Qed.
End HandlerFacts.

(** ** Deregistration *)

Lemma deregister_calls_app (t u : list Event) :
  deregister_calls (t ++ u) = (deregister_calls t + deregister_calls u)%nat.
Proof. unfold deregister_calls. rewrite filter_app, length_app. reflexivity. Qed.

Section DeregistrationFacts.
Context {SD : ServiceDiscovery}.

Lemma deregister_app_skips (publisher : option loc) (w : World) :
  is_registered (heap w) publisher = false ->
  world_of (deregister_app publisher w) = w.
Proof.
  destruct publisher as [l|]; [| reflexivity].
  unfold is_registered, deregister_app, getattr_registered. py_unfold.
  destruct (heap w !! l) as [o|]; [| reflexivity].
  intros ->. reflexivity.
Qed.

Lemma deregister_app_calls (l : loc) (w : World) :
  is_registered (heap w) (Some l) = true ->
  deregister_app (Some l) w =
    (fst (deregister_service_method l (heap w)), after_deregister l w).
Proof.
  unfold is_registered, deregister_app, getattr_registered, after_deregister.
  destruct (heap w !! l) as [o|] eqn:Hl; [| discriminate].
  intros Hr. py_unfold. rewrite Hl, Hr.
  unfold print, deregister_service, call_method. py_unfold. simpl.
  destruct (deregister_service_method l (heap w)) as [out h]. simpl.
  unfold set_heap, set_trace; simpl. rewrite <- app_assoc. reflexivity.
Qed.

Lemma exit_app_world (publisher : option loc) (w : World) :
  world_of (exit_app publisher w) = world_of (deregister_app publisher w).
Proof.
  unfold exit_app, sys_exit. py_unfold.
  destruct (deregister_app publisher w) as [[a|e] w']; reflexivity.
Qed.

Lemma run_callback_world (cb : Callback) (w : World) :
  world_of (run_callback cb w) =
    world_of (deregister_app (callback_publisher cb) w).
Proof. destruct cb; [apply exit_app_world | reflexivity]. Qed.

(** C10.  With [None] or an unregistered publisher, [deregister_app]
    returns normally and leaves the world, and so the number of
    [deregister_service] calls, as it was. *)
Theorem deregister_app_noop (publisher : option loc) (w : World) :
  (publisher = None \/
   exists l o, publisher = Some l /\ heap w !! l = Some o /\ registered o = false) ->
  deregister_app publisher w = (Ok tt, w)
  /\ deregister_calls (trace (world_of (deregister_app publisher w))) =
       deregister_calls (trace w).
Proof.
  intros Hp.
  assert (Heq : deregister_app publisher w = (Ok tt, w)).
  { destruct Hp as [-> | (l & o & -> & Hl & Hr)]; [reflexivity |].
    unfold deregister_app, getattr_registered. py_unfold.
    rewrite Hl, Hr. reflexivity. }
  split; [exact Heq |]. rewrite Heq. reflexivity.
Qed.

(** C9.  [destroy_app] is [deregister_app]: same outcome and same
    resulting world, for every publisher and every world. *)
Theorem destroy_app_is_deregister_app (publisher : option loc) (w : World) :
  destroy_app publisher w = deregister_app publisher w.
Proof. reflexivity. Qed.

(** C8, as the code has it.  On a registered publisher [exit_app] first
    makes the deregistration attempt; if [deregister_service] returns, it
    then raises [SystemExit(0)], so the process exits with code 0; if
    [deregister_service] raises, that exception leaves [exit_app] and
    [exit(0)] is not reached. *)
Theorem exit_app_after_deregistration (l : loc) (w : World) :
  is_registered (heap w) (Some l) = true ->
  let attempt := fst (deregister_service_method l (heap w)) in
  (attempt = Ok tt ->
     exit_app (Some l) w = (Raise (ExcSystemExit 0), after_deregister l w)
     /\ process_exit_code (ExcSystemExit 0) = 0)
  /\ (forall x, attempt = Raise x ->
        exit_app (Some l) w = (Raise x, after_deregister l w)).
Proof.
  intros Hr attempt. unfold exit_app, sys_exit. py_unfold.
  rewrite (deregister_app_calls l w Hr). fold attempt.
  split.
  - intros ->. split; reflexivity.
  - intros x ->. reflexivity.
Qed.

(** A callback over [publisher] adds one call when the publisher is
    registered and none otherwise. *)
Lemma run_callback_count (cb : Callback) (w : World) :
  deregister_calls (trace (world_of (run_callback cb w))) =
    (deregister_calls (trace w) +
     if is_registered (heap w) (callback_publisher cb) then 1 else 0)%nat.
Proof.
  rewrite run_callback_world.
  destruct (is_registered (heap w) (callback_publisher cb)) eqn:Hr.
  - destruct (callback_publisher cb) as [l|]; [| discriminate].
    rewrite (deregister_app_calls l w Hr). unfold world_of, after_deregister; simpl.
    rewrite deregister_calls_app. reflexivity.
  - rewrite (deregister_app_skips _ w Hr). lia.
Qed.

Section FlagCleared.
(** The precondition on the collaborator: [deregister_service] leaves
    the object unregistered, whether it returns or raises. *)
Hypothesis deregister_clears :
  forall l h, is_registered (snd (deregister_service_method l h)) (Some l) = false.

Lemma run_callback_unregisters (cb : Callback) (w : World) :
  is_registered (heap (world_of (run_callback cb w))) (callback_publisher cb) = false.
Proof.
  rewrite run_callback_world.
  destruct (is_registered (heap w) (callback_publisher cb)) eqn:Hr.
  - destruct (callback_publisher cb) as [l|]; [| reflexivity].
    rewrite (deregister_app_calls l w Hr). apply deregister_clears.
  - rewrite (deregister_app_skips _ w Hr). exact Hr.
Qed.

Lemma run_callbacks_count (publisher : option loc) (cbs : list Callback) :
  Forall (fun cb => callback_publisher cb = publisher) cbs ->
  forall w,
    deregister_calls (trace (run_callbacks cbs w)) =
      (deregister_calls (trace w) +
       match cbs with
       | [] => 0
       | _ :: _ => if is_registered (heap w) publisher then 1 else 0
       end)%nat.
Proof.
  induction 1 as [| cb rest Hcb Hrest IH]; intros w; simpl.
  - lia.
  - rewrite IH. fold (world_of (run_callback cb w)).
    rewrite run_callback_count. subst publisher.
    destruct rest as [| cb' rest']; [lia |].
    rewrite run_callback_unregisters. lia.
Qed.

(** C1, as the code has it.  Calling [deregister_app] twice in a row on a
    registered publisher makes exactly one [deregister_service] call, and
    however many shutdown callbacks over that publisher fire one after the
    other, each finishing before the next starts, they make at most
    one. *)
Theorem deregister_app_at_most_once (publisher : option loc) (w : World) :
  (is_registered (heap w) publisher = true ->
   deregister_calls
     (trace (world_of (deregister_app publisher
                         (world_of (deregister_app publisher w))))) =
     S (deregister_calls (trace w)))
  /\ (forall cbs,
        Forall (fun cb => callback_publisher cb = publisher) cbs ->
        (deregister_calls (trace (run_callbacks cbs w)) <=
           S (deregister_calls (trace w)))%nat).
Proof.
  split.
  - intros Hr.
    assert (Hsame : Forall (fun cb => callback_publisher cb = publisher)
                      [CbDestroyApp publisher; CbDestroyApp publisher])
      by (repeat constructor).
    pose proof (run_callbacks_count publisher _ Hsame w) as Hc.
    rewrite Hr in Hc. simpl in Hc. unfold destroy_app in Hc.
    unfold world_of. rewrite Hc. lia.
  - intros cbs Hcbs. rewrite (run_callbacks_count publisher cbs Hcbs).
    destruct cbs; [lia |].
    destruct (is_registered (heap w) publisher); lia.
Qed.
End FlagCleared.
End DeregistrationFacts.

(** ** Registration in [create_app] *)

Create HintDb hooks.

Lemma keeps_hooks_ret {A} (a : A) : keeps_hooks (mret a).
Proof. intros w. split; reflexivity. Qed.

Lemma keeps_hooks_lift {A} (o : Outcome A) : keeps_hooks (lift o).
Proof. intros w. split; reflexivity. Qed.

Lemma keeps_hooks_get {A} (f : World -> A) : keeps_hooks (get f).
Proof. intros w. split; reflexivity. Qed.

Lemma keeps_hooks_emit (ev : Event) : keeps_hooks (emit ev).
Proof. intros w. split; reflexivity. Qed.

Lemma keeps_hooks_env_getitem (k : string) : keeps_hooks (env_getitem k).
Proof.
  intros w. unfold env_getitem, world_of.
  destruct (environ w !! k); split; reflexivity.
Qed.

Lemma keeps_hooks_bind {A B} (c : M A) (k : A -> M B) :
  keeps_hooks c -> (forall a, keeps_hooks (k a)) -> keeps_hooks (c ≫= k).
Proof.
  intros Hc Hk w. specialize (Hc w). py_unfold.
  destruct (c w) as [[a|e] w']; simpl in *; [| exact Hc].
  destruct (Hk a w') as [Hs Ha]. destruct Hc as [Hs' Ha'].
  unfold world_of in *. split; congruence.
Qed.

#[local] Hint Resolve keeps_hooks_ret keeps_hooks_lift keeps_hooks_get
  keeps_hooks_emit keeps_hooks_env_getitem : hooks.

Section RegistrationFacts.
Context {B : Builtins} {SD : ServiceDiscovery}.

Lemma keeps_hooks_new_object (o : ServicePublisher) : keeps_hooks (new_object o).
Proof. intros w. split; reflexivity. Qed.

Lemma keeps_hooks_call_method f : keeps_hooks (call_method f).
Proof.
  intros w. unfold call_method, world_of.
  destruct (f (heap w)); split; reflexivity.
Qed.

Lemma keeps_hooks_create_service_publisher : keeps_hooks create_service_publisher.
Proof.
  unfold create_service_publisher.
  repeat (apply keeps_hooks_bind; [auto with hooks | intros ?]).
  apply keeps_hooks_new_object.
Qed.

Lemma keeps_hooks_register_service (l : loc) (hb : bool) :
  keeps_hooks (register_service l hb).
Proof.
  unfold register_service.
  apply keeps_hooks_bind; [auto with hooks | intros ?].
  apply keeps_hooks_call_method.
Qed.

Lemma register_service_outcome (l : loc) (hb : bool) (w : World) :
  outcome_of (register_service l hb w) =
    fst (register_service_method l hb (heap w)).
Proof.
  unfold register_service, call_method. py_unfold. simpl.
  destruct (register_service_method l hb (heap w)); reflexivity.
Qed.

(** C3, as the code has it.  When the registration block is entered, the
    publisher is created, and [register_service] raises, then [create_app]
    raises that same exception instead of returning the application, and
    neither the signal table nor the exit hooks have changed. *)
Theorem create_app_registration_failure
    (w w1 : World) (l : loc) (x : PyException) :
  discovery_enabled w = true ->
  create_service_publisher (world_of (emit EvTrack w)) = (Ok l, w1) ->
  fst (register_service_method l true (heap w1)) = Raise x ->
  outcome_of (create_app w) = Raise x
  /\ signal_handlers (world_of (create_app w)) = signal_handlers w
  /\ atexit_hooks (world_of (create_app w)) = atexit_hooks w.
Proof.
  intros Hen Hpub Hreg.
  pose proof (keeps_hooks_create_service_publisher (world_of (emit EvTrack w))) as Hk1.
  pose proof (keeps_hooks_register_service l true w1) as Hk2.
  pose proof (register_service_outcome l true w1) as Ho.
  rewrite Hreg in Ho. rewrite Hpub in Hk1.
  unfold create_app, register_with_discovery. py_unfold. simpl in *.
  replace (discovery_enabled (set_trace (trace w ++ [EvTrack]) w)) with true
    by (symmetry; exact Hen).
  rewrite Hpub.
  destruct (register_service l true w1) as [[u|e] w2]; simpl in *;
    [discriminate |].
  injection Ho as ->.
  destruct Hk1 as [Hs1 Ha1]. destruct Hk2 as [Hs2 Ha2].
  repeat split; congruence.
Qed.
End RegistrationFacts.

(** ** The claims that fail, at concrete inputs *)

(** C3 fails as stated: in a production environment whose registry is
    down, [create_app] reaches [register_service], which raises, and
    [create_app] does not return an application. *)
Lemma create_app_registration_failure_is_fatal :
  discovery_enabled Fixture.prod_world = true
  /\ fst (@register_service_method Fixture.down_registry 1%positive true
            (heap (world_of (@create_service_publisher Fixture.builtins Fixture.down_registry
                               (world_of (emit EvTrack Fixture.prod_world)))))) =
       Raise Fixture.unavailable
  /\ outcome_of (@create_app Fixture.builtins Fixture.down_registry Fixture.prod_world) =
       Raise Fixture.unavailable
  /\ ~ exists app,
        outcome_of (@create_app Fixture.builtins Fixture.down_registry Fixture.prod_world) =
          Ok app.
Proof.
  assert (Ho : outcome_of (@create_app Fixture.builtins Fixture.down_registry Fixture.prod_world) =
               Raise Fixture.unavailable) by (vm_compute; reflexivity).
  split; [vm_compute; reflexivity |].
  split; [vm_compute; reflexivity |].
  split; [exact Ho |].
  intros [app Happ]. rewrite Ho in Happ. discriminate.
Qed.

(** C1 fails as stated for triggers that overlap: with a registry that does
    clear the flag, a SIGINT handled while the SIGTERM handler is inside
    [deregister_service], before the flag is cleared, makes a second call;
    so does a signal handled during the exit hook's call. *)
Lemma overlapping_triggers_deregister_twice :
  (forall l h,
     is_registered (snd (@deregister_service_method Fixture.healthy_registry l h))
       (Some l) = false)
  /\ is_registered (heap Fixture.registered_world) (Some 1%positive) = true
  /\ signal_handlers Fixture.registered_world !! SIGTERM = Some (CbExitApp (Some 1%positive))
  /\ signal_handlers Fixture.registered_world !! SIGINT = Some (CbExitApp (Some 1%positive))
  /\ atexit_hooks Fixture.registered_world = [CbDestroyApp (Some 1%positive)]
  /\ trace (world_of (@run_callback_interrupted Fixture.healthy_registry
                        (CbExitApp (Some 1%positive)) (CbExitApp (Some 1%positive))
                        Fixture.registered_world)) =
       [EvPrint "Deregistering service from Service Discovery";
        EvDeregisterService 1%positive;
        EvPrint "Deregistering service from Service Discovery";
        EvDeregisterService 1%positive]
  /\ deregister_calls
       (trace (world_of (@run_callback_interrupted Fixture.healthy_registry
                           (CbExitApp (Some 1%positive)) (CbExitApp (Some 1%positive))
                           Fixture.registered_world))) = 2%nat
  /\ deregister_calls
       (trace (world_of (@run_callback_interrupted Fixture.healthy_registry
                           (CbDestroyApp (Some 1%positive)) (CbExitApp (Some 1%positive))
                           Fixture.registered_world))) = 2%nat.
Proof.
  split.
  { intros l h. unfold is_registered; simpl. rewrite lookup_alter_eq.
    destruct (h !! l); reflexivity. }
  repeat split; vm_compute; reflexivity.
Qed.

(** C8 fails as stated: with a registered publisher and a registry that is
    down, [exit_app] makes the deregistration attempt and then leaves with
    the registry's exception, not with [SystemExit(0)]; at top level that is
    exit code 1. *)
Lemma exit_app_failed_deregistration_not_zero :
  is_registered (heap Fixture.registered_world) (Some 1%positive) = true
  /\ outcome_of (@exit_app Fixture.down_registry (Some 1%positive) Fixture.registered_world) =
       Raise Fixture.unavailable
  /\ outcome_of (@exit_app Fixture.down_registry (Some 1%positive) Fixture.registered_world) <>
       Raise (ExcSystemExit 0)
  /\ process_exit_code Fixture.unavailable = 1
  /\ outcome_of (@exit_app Fixture.healthy_registry (Some 1%positive) Fixture.registered_world) =
       Raise (ExcSystemExit 0).
Proof.
  assert (Ho : outcome_of (@exit_app Fixture.down_registry (Some 1%positive)
                             Fixture.registered_world) = Raise Fixture.unavailable)
    by (vm_compute; reflexivity).
  split; [vm_compute; reflexivity |].
  split; [exact Ho |].
  split; [rewrite Ho; discriminate |].
  split; vm_compute; reflexivity.
Qed.

(** ** The theorems at concrete inputs *)

Lemma healthy_registry_clears (l : loc) (h : gmap loc ServicePublisher) :
  is_registered (snd (@deregister_service_method Fixture.healthy_registry l h)) (Some l) = false.
Proof.
  unfold is_registered; simpl. rewrite lookup_alter_eq.
  destruct (h !! l); reflexivity.
Defined.

Lemma deregister_app_at_most_once_witness :
  is_registered (heap Fixture.registered_world) (Some 1%positive) = true
  /\ deregister_calls
       (trace (world_of (@deregister_app Fixture.healthy_registry (Some 1%positive)
                 (world_of (@deregister_app Fixture.healthy_registry (Some 1%positive)
                              Fixture.registered_world))))) = 1%nat.
Proof.
  split; [reflexivity |].
  exact (proj1 (@deregister_app_at_most_once Fixture.healthy_registry
                  healthy_registry_clears (Some 1%positive) Fixture.registered_world)
               eq_refl).
Defined.

Lemma exception_handler_generic_server_error_example :
  outcome_of
    (@exception_handler Fixture.builtins spec_exceptions
       (spec_web_utils Fixture.accepts_json)
       (ExcOther "ValueError" "db password rejected") Fixture.prod_world) =
    Ok {| body := @json_dumps Fixture.builtins (code_message_dict 500 "Server Error");
          status := 500; mimetype := "application/json" |}.
Proof.
  exact (proj1 (@exception_handler_generic_server_error Fixture.builtins
                  Fixture.accepts_json (ExcOther "ValueError" "db password rejected")
                  Fixture.prod_world "db password rejected" eq_refl eq_refl)).
Qed.

Lemma exception_handler_unrenderable_failure_witness :
  isinstance_APIException (ExcOther "Exception" Fixture.cafe_bytes) = false
  /\ @unicode Fixture.builtins (ExcOther "Exception" Fixture.cafe_bytes) =
       Raise Fixture.decode_error
  /\ @exception_handler Fixture.builtins spec_exceptions
       (spec_web_utils Fixture.accepts_json)
       (ExcOther "Exception" Fixture.cafe_bytes) Fixture.prod_world =
       (Raise Fixture.decode_error, Fixture.prod_world).
Proof.
  split; [reflexivity |]. split; [reflexivity |].
  apply (@exception_handler_unrenderable_failure Fixture.builtins spec_exceptions
           (spec_web_utils Fixture.accepts_json)
           (ExcOther "Exception" Fixture.cafe_bytes) Fixture.decode_error
           Fixture.prod_world); reflexivity.
Defined.

Lemma create_app_registration_failure_witness :
  outcome_of (@create_app Fixture.builtins Fixture.down_registry Fixture.prod_world) =
    Raise Fixture.unavailable
  /\ signal_handlers
       (world_of (@create_app Fixture.builtins Fixture.down_registry Fixture.prod_world)) =
       signal_handlers Fixture.prod_world
  /\ atexit_hooks
       (world_of (@create_app Fixture.builtins Fixture.down_registry Fixture.prod_world)) =
       atexit_hooks Fixture.prod_world.
Proof.
  apply (@create_app_registration_failure Fixture.builtins Fixture.down_registry
           Fixture.prod_world
           (world_of (@create_service_publisher Fixture.builtins Fixture.down_registry
                        (world_of (emit EvTrack Fixture.prod_world))))
           1%positive Fixture.unavailable).
  - vm_compute; reflexivity.
  - vm_compute; reflexivity.
  - vm_compute; reflexivity.
Defined.

Lemma not_found_handler_json_witness :
  @request_wants_json (spec_web_utils Fixture.accepts_json)
    (request Fixture.prod_world) = true
  /\ outcome_of
       (@not_found_handler Fixture.builtins (spec_web_utils Fixture.accepts_json)
          (ExcOther "NotFound" "404: Not Found") Fixture.prod_world) =
       Ok (Some {| body := @json_dumps Fixture.builtins
                             (code_message_dict 404 "Resource not found.");
                   status := 404; mimetype := "application/json" |}).
Proof.
  split; [vm_compute; reflexivity |].
  refine (proj1 (@not_found_handler_json Fixture.builtins
                   (spec_web_utils Fixture.accepts_json)
                   (ExcOther "NotFound" "404: Not Found") Fixture.prod_world _)).
  vm_compute; reflexivity.
Defined.

Lemma not_found_handler_no_json_witness :
  @request_wants_json (spec_web_utils Fixture.accepts_json)
    (request Fixture.browser_world) = false
  /\ outcome_of
       (@not_found_handler Fixture.builtins (spec_web_utils Fixture.accepts_json)
          (ExcOther "NotFound" "404: Not Found") Fixture.browser_world) = Ok None.
Proof.
  split; [vm_compute; reflexivity |].
  rewrite (@not_found_handler_no_json Fixture.builtins
             (spec_web_utils Fixture.accepts_json)
             (ExcOther "NotFound" "404: Not Found") Fixture.browser_world);
    [reflexivity | vm_compute; reflexivity].
Defined.

Lemma exit_app_after_deregistration_witness :
  is_registered (heap Fixture.registered_world) (Some 1%positive) = true
  /\ @exit_app Fixture.healthy_registry (Some 1%positive) Fixture.registered_world =
       (Raise (ExcSystemExit 0),
        @after_deregister Fixture.healthy_registry 1%positive Fixture.registered_world).
Proof.
  split; [reflexivity |].
  exact (proj1 (proj1 (@exit_app_after_deregistration Fixture.healthy_registry
                         1%positive Fixture.registered_world eq_refl)
                      eq_refl)).
Defined.

Lemma deregister_app_noop_witness :
  heap Fixture.unregistered_world !! 1%positive =
    Some (Fixture.set_registered false Fixture.a_publisher)
  /\ @deregister_app Fixture.healthy_registry (Some 1%positive) Fixture.unregistered_world =
       (Ok tt, Fixture.unregistered_world).
Proof.
  split; [reflexivity |].
  refine (proj1 (@deregister_app_noop Fixture.healthy_registry (Some 1%positive)
                   Fixture.unregistered_world _)).
  right. exists 1%positive, (Fixture.set_registered false Fixture.a_publisher).
  repeat split; reflexivity.
Defined.

(** ** Further examples *)

(** With a registry that answers, [create_app] returns the application and
    arms both signals and the exit hook over the one publisher. *)
Example create_app_arms_hooks :
  let r := @create_app Fixture.builtins Fixture.healthy_registry Fixture.prod_world in
  raised (outcome_of r) = false
  /\ signal_handlers (world_of r) !! SIGTERM = Some (CbExitApp (Some 1%positive))
  /\ signal_handlers (world_of r) !! SIGINT = Some (CbExitApp (Some 1%positive))
  /\ atexit_hooks (world_of r) = [CbDestroyApp (Some 1%positive)]
  /\ trace (world_of r) = [EvTrack; EvRegisterService 1%positive true].
Proof. vm_compute. repeat split; reflexivity. Qed.

(** With registration switched off, [create_app] only emits the deployment
    event. *)
Example create_app_discovery_off :
  let w := {| config := {| ENVIRONMENT := "DEV"; SD_STATUS := "OFF" |};
              environ := environ Fixture.prod_world;
              request := Fixture.json_request;
              heap := ∅; signal_handlers := ∅; atexit_hooks := []; trace := [] |} in
  let r := @create_app Fixture.builtins Fixture.healthy_registry w in
  (debug <$> match outcome_of r with Ok app => Some app | Raise _ => None end) = Some true
  /\ world_of r = set_trace [EvTrack] w.
Proof. vm_compute. split; reflexivity. Qed.

(** The precondition of the at-most-once property is needed: when
    [deregister_service] leaves the flag set, a signal followed by the exit
    hook deregisters twice. *)
Example sticky_flag_deregisters_twice :
  deregister_calls
    (trace (@run_callbacks Fixture.sticky_registry
              [CbExitApp (Some 1%positive); CbDestroyApp (Some 1%positive)]
              Fixture.registered_world)) = 2%nat.
Proof. vm_compute. reflexivity. Qed.

(** A signal followed by the exit hook, with a registry that answers:
    one call. *)
Example signal_then_exit_hook_deregisters_once :
  trace (@run_callbacks Fixture.healthy_registry
           [CbExitApp (Some 1%positive); CbDestroyApp (Some 1%positive)]
           Fixture.registered_world) =
    [EvPrint "Deregistering service from Service Discovery";
     EvDeregisterService 1%positive].
Proof. vm_compute. reflexivity. Qed.

(** * More of the module *)

(** ** Creating the publisher *)

Section PublisherFacts.
Context {B : Builtins} {SD : ServiceDiscovery}.

Ltac publisher_steps :=
  unfold create_service_publisher, env_getitem, new_object; py_unfold;
  repeat (case_match; simplify_eq; try discriminate).

Lemma create_service_publisher_raise_world (w : World) :
  raised (outcome_of (create_service_publisher w)) = true ->
  world_of (create_service_publisher w) = w.
Proof.
  publisher_steps; simpl; intros Hr; try discriminate; reflexivity.
Qed.
Lemma create_service_publisher_inv (w w1 : World) (l : loc) :
  create_service_publisher w = (Ok l, w1) ->
  heap w !! l = None
  /\ exists (uri url token : PyVal) (lw_env : string),
       environ w !! "LOGISTICS_WIZARD_ENV" = Some lw_env
       /\ w1 = set_heap
                 (<[l := ServicePublisher_new "lw-controller" 300 "UP" uri "http"
                          ["logistics-wizard"; "front-end"; lw_env] url token]>
                    (heap w)) w.
Proof.
  publisher_steps. intros Heq. simplify_eq. split.
  - apply not_elem_of_dom. apply is_fresh.
  - eauto 10.
Qed.

Lemma create_service_publisher_trace (w : World) :
  trace (world_of (create_service_publisher w)) = trace w.
Proof.
  destruct (create_service_publisher w) as [[l|e] w1] eqn:Hc.
  - apply create_service_publisher_inv in Hc as (_ & ? & ? & ? & ? & _ & ->).
    reflexivity.
  - pose proof (create_service_publisher_raise_world w) as Hw.
    rewrite Hc in Hw. simpl in Hw. rewrite Hw; reflexivity.
Qed.

Lemma register_service_eq (l : loc) (hb : bool) (w : World) :
  register_service l hb w =
    (fst (register_service_method l hb (heap w)),
     set_heap (snd (register_service_method l hb (heap w)))
       (set_trace (trace w ++ [EvRegisterService l hb]) w)).
Proof.
  unfold register_service, call_method. py_unfold. simpl.
  destruct (register_service_method l hb (heap w)); reflexivity.
Qed.

(** [create_app], step by step. *)
Lemma create_app_cases (w : World) :
  create_app w =
    let w0 := set_trace (trace w ++ [EvTrack]) w in
    if discovery_enabled w then
      match create_service_publisher w0 with
      | (Ok l, w1) =>
          match register_service l true w1 with
          | (Ok _, w2) => (Ok (configured_app (config w)), hooks_armed l w2)
          | (Raise e, w2) => (Raise e, w2)
          end
      | (Raise e, w1) => (Raise e, w1)
      end
    else (Ok (configured_app (config w)), w0).
Proof.
  unfold create_app, register_with_discovery, signal, atexit_register, hooks_armed.
  py_unfold. simpl.
  change (discovery_enabled (set_trace (trace w ++ [EvTrack]) w))
    with (discovery_enabled w).
  destruct (discovery_enabled w); [| reflexivity].
  destruct (create_service_publisher _) as [[l|e] w1]; [| reflexivity].
  destruct (register_service l true w1) as [[u|e] w2]; reflexivity.
Qed.

(** X1.  With Service Discovery switched off in the configuration, or outside
    the hosting environment (no [VCAP_APPLICATION]), [create_app] returns
    the application and does nothing else than emit the deployment event:
    no publisher, no registry call, no hook. *)
Theorem create_app_discovery_disabled (w : World) :
  SD_STATUS (config w) <> "ON" \/ environ w !! "VCAP_APPLICATION" = None ->
  create_app w =
    (Ok (configured_app (config w)), set_trace (trace w ++ [EvTrack]) w).
Proof.
  intros Hoff. rewrite create_app_cases. simpl.
  assert (Hd : discovery_enabled w = false).
  { unfold discovery_enabled. apply andb_false_iff.
    destruct Hoff as [Hs | Hv]; [left | right].
    - apply bool_decide_eq_false. exact Hs.
    - apply bool_decide_eq_false. rewrite Hv. intros [? ?]; discriminate. }
  rewrite Hd. reflexivity.
Qed.

(** X2.  Whatever the environment, an application that [create_app] returns is
    configured the same way, except that debug mode is on exactly in the
    ["DEV"] environment. *)
Theorem create_app_configuration (w : World) (app : Flask) :
  outcome_of (create_app w) = Ok app ->
  import_name app = "logistics_wizard"
  /\ static_folder app = "ui_dist"
  /\ (debug app = true <-> ENVIRONMENT (config w) = "DEV")
  /\ url_rules app = [("/", ViewRoot); ("/<path:path>", ViewStaticProxy)]
  /\ cors app = Some {| origins := [".*"]; supports_credentials := true |}
  /\ blueprints app =
       [(demos_v1_blueprint, "/api/v1"); (shipments_v1_blueprint, "/api/v1");
        (distribution_centers_v1_blueprint, "/api/v1");
        (retailers_v1_blueprint, "/api/v1"); (products_v1_blueprint, "/api/v1")]
  /\ before_request_funcs app = [setup_auth_from_request]
  /\ error_handlers app =
       [(ForException, HExceptionHandler); (ForCode 400, HBadRequestHandler);
        (ForCode 404, HNotFoundHandler)].
Proof.
  intros Hok.
  assert (Happ : app = configured_app (config w)).
  { rewrite create_app_cases in Hok. unfold outcome_of in Hok. simpl in Hok.
    destruct (discovery_enabled w); [| simpl in Hok; congruence].
    destruct (create_service_publisher _) as [[l|e] w1]; [| discriminate].
    destruct (register_service l true w1) as [[u|e] w2]; [| discriminate].
    simpl in Hok. congruence. }
  subst app. unfold configured_app.
  destruct (decide (ENVIRONMENT (config w) = "DEV")) as [Hdev | Hdev]; simpl;
    repeat split; try reflexivity; try (intros _; exact Hdev);
    try (intros ?; congruence); try discriminate.
Qed.
(** The events [create_app] adds: the deployment event, followed by at most
    one registration, of a new object and with the heartbeat on. *)
Lemma create_app_trace (w : World) :
  trace (world_of (create_app w)) = (trace w ++ [EvTrack])%list
  \/ exists l, heap w !! l = None
       /\ trace (world_of (create_app w)) =
            (trace w ++ [EvTrack; EvRegisterService l true])%list.
Proof.
  rewrite create_app_cases. simpl.
  destruct (discovery_enabled w); [| left; reflexivity].
  destruct (create_service_publisher _) as [[l|e] w1] eqn:Hc.
  - apply create_service_publisher_inv in Hc as (Hfresh & ? & ? & ? & ? & _ & ->).
    right. exists l. split; [exact Hfresh |].
    rewrite register_service_eq.
    destruct (fst (register_service_method l true _)); simpl;
      rewrite <- app_assoc; reflexivity.
  - left.
    pose proof (create_service_publisher_raise_world
                  (set_trace (trace w ++ [EvTrack]) w)) as Hw.
    rewrite Hc in Hw. simpl in Hw. rewrite Hw; reflexivity.
Qed.

(** X5.  [create_app] never deregisters and registers at most once. *)
Theorem create_app_registry_calls (w : World) :
  deregister_calls (trace (world_of (create_app w))) = deregister_calls (trace w)
  /\ (register_calls (trace (world_of (create_app w))) <=
        S (register_calls (trace w)))%nat.
Proof.
  unfold register_calls.
  destruct (create_app_trace w) as [-> | (l & _ & ->)];
    rewrite deregister_calls_app, filter_app, length_app.
  - change (deregister_calls [EvTrack]) with 0%nat.
    change (length (filter (fun ev => is_register ev = true) [EvTrack])) with 0%nat.
    split; lia.
  - change (deregister_calls [EvTrack; EvRegisterService l true]) with 0%nat.
    change (length (filter (fun ev => is_register ev = true)
                      [EvTrack; EvRegisterService l true])) with 1%nat.
    split; lia.
Qed.

(** X3.  When [create_app] raises, for whatever reason, it has installed no
    signal handler and no exit hook. *)
Theorem create_app_failure_arms_nothing (w : World) :
  raised (outcome_of (create_app w)) = true ->
  signal_handlers (world_of (create_app w)) = signal_handlers w
  /\ atexit_hooks (world_of (create_app w)) = atexit_hooks w.
Proof.
  rewrite create_app_cases. simpl.
  destruct (discovery_enabled w); [| discriminate].
  destruct (create_service_publisher _) as [[l|e] w1] eqn:Hc.
  - apply create_service_publisher_inv in Hc as (_ & ? & ? & ? & ? & _ & ->).
    rewrite register_service_eq.
    destruct (fst (register_service_method l true _)); simpl;
      [discriminate | intros _; split; reflexivity].
  - pose proof (create_service_publisher_raise_world
                  (set_trace (trace w ++ [EvTrack]) w)) as Hw.
    rewrite Hc in Hw. simpl in Hw. rewrite Hw by reflexivity.
    intros _; split; reflexivity.
Qed.

(** X4.  When the registration block runs and [create_app] returns, the
    store is the old one plus exactly one new publisher, as
    [register_service] left it; that publisher was registered once, with the
    heartbeat on; both signals are handled by [exit_app] over it, and
    [destroy_app] over it is the last exit hook. *)
Theorem create_app_success_arms_hooks (w : World) (app : Flask) :
  discovery_enabled w = true ->
  outcome_of (create_app w) = Ok app ->
  exists (l : loc) (uri url token : PyVal) (lw_env : string),
    heap w !! l = None
    /\ environ w !! "LOGISTICS_WIZARD_ENV" = Some lw_env
    /\ heap (world_of (create_app w)) =
         snd (register_service_method l true
                (<[l := ServicePublisher_new "lw-controller" 300 "UP" uri "http"
                         ["logistics-wizard"; "front-end"; lw_env] url token]>
                   (heap w)))
    /\ signal_handlers (world_of (create_app w)) =
         <[SIGINT := CbExitApp (Some l)]>
           (<[SIGTERM := CbExitApp (Some l)]> (signal_handlers w))
    /\ atexit_hooks (world_of (create_app w)) =
         (atexit_hooks w ++ [CbDestroyApp (Some l)])%list
    /\ trace (world_of (create_app w)) =
         (trace w ++ [EvTrack; EvRegisterService l true])%list.
Proof.
  intros Hen. rewrite create_app_cases. simpl. rewrite Hen.
  destruct (create_service_publisher _) as [[l|e] w1] eqn:Hc; [| discriminate].
  apply create_service_publisher_inv in Hc
    as (Hfresh & uri & url & token & lw_env & Henv & ->).
  rewrite register_service_eq.
  destruct (fst (register_service_method l true _)); simpl; [| discriminate].
  intros _. exists l, uri, url, token, lw_env.
  split; [exact Hfresh |]. split; [exact Henv |].
  repeat split. rewrite <- app_assoc. reflexivity.
Qed.

(** X6.  Credentials that cannot be read stop [create_app] before any registry
    call: a missing [VCAP_SERVICES] variable is a [KeyError], and a document
    that [json.loads] rejects raises the decoder's exception. *)
Theorem create_app_unreadable_credentials (w : World) :
  discovery_enabled w = true ->
  (environ w !! "VCAP_SERVICES" = None ->
   create_app w =
     (Raise (ExcOther "KeyError" "VCAP_SERVICES"),
      set_trace (trace w ++ [EvTrack]) w))
  /\ (forall doc x,
        environ w !! "VCAP_SERVICES" = Some doc ->
        json_loads doc = Raise x ->
        create_app w = (Raise x, set_trace (trace w ++ [EvTrack]) w)).
Proof.
  intros Hen. split.
  - intros Hv. rewrite create_app_cases. simpl. rewrite Hen.
    unfold create_service_publisher, env_getitem. py_unfold. simpl.
    rewrite Hv. reflexivity.
  - intros doc x Hv Hx. rewrite create_app_cases. simpl. rewrite Hen.
    unfold create_service_publisher, env_getitem. py_unfold. simpl.
    rewrite Hv, Hx. reflexivity.
Qed.
(** X8.  A failed publisher creation leaves the world as it was: nothing is
    allocated, logged or installed when an environment variable is missing,
    a document does not parse, or a subscript fails. *)
Theorem create_service_publisher_failure_changes_nothing (w : World) :
  raised (outcome_of (create_service_publisher w)) = true ->
  world_of (create_service_publisher w) = w.
Proof. intros Hr. apply create_service_publisher_raise_world. exact Hr. Qed.

(** X7.  A created publisher is a new object: its reference was unused, it
    is built as ["lw-controller"] with TTL 300, status ["UP"], protocol
    ["http"] and the tags [logistics-wizard, front-end,
    $LOGISTICS_WIZARD_ENV], and nothing else in the world changes. *)
Theorem create_service_publisher_result (w w1 : World) (l : loc) :
  create_service_publisher w = (Ok l, w1) ->
  heap w !! l = None
  /\ exists (uri url token : PyVal) (lw_env : string),
       environ w !! "LOGISTICS_WIZARD_ENV" = Some lw_env
       /\ w1 = set_heap
                 (<[l := ServicePublisher_new "lw-controller" 300 "UP" uri "http"
                          ["logistics-wizard"; "front-end"; lw_env] url token]>
                    (heap w)) w.
Proof. intros Hc. apply create_service_publisher_inv. exact Hc. Qed.
End PublisherFacts.

(** ** Shutdown routines *)

Section ShutdownFacts.
Context {SD : ServiceDiscovery}.

(** X9.  What [deregister_app] changes: it prints its message exactly when it
    calls [deregister_service], right before the call, and it never touches
    the configuration, the environment, the signal table or the exit
    hooks. *)
Theorem deregister_app_effects (publisher : option loc) (w : World) :
  let w' := world_of (deregister_app publisher w) in
  trace w' =
    (trace w ++
     match publisher with
     | Some l =>
         if is_registered (heap w) publisher
         then [EvPrint "Deregistering service from Service Discovery";
               EvDeregisterService l]
         else []
     | None => []
     end)%list
  /\ config w' = config w
  /\ environ w' = environ w
  /\ signal_handlers w' = signal_handlers w
  /\ atexit_hooks w' = atexit_hooks w.
Proof.
  cbv zeta.
  destruct (is_registered (heap w) publisher) eqn:Hr.
  - destruct publisher as [l|]; [| discriminate].
    rewrite (deregister_app_calls l w Hr). repeat split; reflexivity.
  - rewrite (deregister_app_skips publisher w Hr).
    destruct publisher; rewrite app_nil_r; repeat split; reflexivity.
Qed.

(** X10.  [exit_app] never returns to its caller: it raises [SystemExit(0)] when
    the deregistration step returned, and the exception of that step
    otherwise; in both cases the world is the one that step left. *)
Theorem exit_app_never_returns (publisher : option loc) (w : World) :
  raised (outcome_of (exit_app publisher w)) = true
  /\ world_of (exit_app publisher w) = world_of (deregister_app publisher w)
  /\ (raised (outcome_of (deregister_app publisher w)) = false ->
      outcome_of (exit_app publisher w) = Raise (ExcSystemExit 0))
  /\ (forall x, outcome_of (deregister_app publisher w) = Raise x ->
        outcome_of (exit_app publisher w) = Raise x).
Proof.
  unfold exit_app, sys_exit. py_unfold.
  destruct (deregister_app publisher w) as [[u|e] w']; simpl;
    repeat split; try reflexivity; try discriminate; congruence.
Qed.

(** X11.  A signal that arrives when there is no publisher, or when the publisher
    is not registered, ends the process with [SystemExit(0)] without
    calling the registry and without changing anything. *)
Theorem exit_app_unregistered (publisher : option loc) (w : World) :
  (publisher = None \/
   exists l o, publisher = Some l /\ heap w !! l = Some o /\ registered o = false) ->
  exit_app publisher w = (Raise (ExcSystemExit 0), w).
Proof.
  intros Hp. unfold exit_app, sys_exit. py_unfold.
  destruct Hp as [-> | (l & o & -> & Hl & Hr)]; [reflexivity |].
  unfold deregister_app, getattr_registered. py_unfold.
  rewrite Hl, Hr. reflexivity.
Qed.
(** A callback over the same publisher that fires inside the
    [deregister_service] call of a registered publisher adds a second call,
    whatever the registry does afterwards. *)
Lemma deregister_app_interrupted_calls (l : loc) (cb : Callback) (w : World) :
  is_registered (heap w) (Some l) = true ->
  callback_publisher cb = Some l ->
  deregister_calls (trace (world_of (deregister_app_interrupted (Some l) cb w))) =
    (deregister_calls (trace w) + 2)%nat.
Proof.
  intros Hr Hcb.
  unfold deregister_app_interrupted, getattr_registered, deregister_service_interrupted,
    print.
  pose proof Hr as Hr'. unfold is_registered in Hr'.
  destruct (heap w !! l) as [o|] eqn:Hl; [| discriminate].
  py_unfold. rewrite Hl, Hr'. simpl.
  match goal with
  | |- context [run_callback cb ?w2] =>
      pose proof (run_callback_count cb w2) as Hc;
      destruct (run_callback cb w2) as [[u|e] w3]
  end; unfold world_of in Hc; simpl in Hc; rewrite Hcb in Hc;
    unfold is_registered in Hc; rewrite Hl, Hr' in Hc;
    rewrite !deregister_calls_app in Hc;
    change (deregister_calls [EvPrint "Deregistering service from Service Discovery"])
      with 0%nat in Hc;
    change (deregister_calls [EvDeregisterService l]) with 1%nat in Hc.
  - unfold call_method. destruct (deregister_service_method l (heap w3)); simpl. lia.
  - simpl. lia.
Qed.
End ShutdownFacts.

(** ** From start-up to shutdown *)

Section LifecycleFacts.
Context {B : Builtins} {SD : ServiceDiscovery}.

(** X12.  With a registry whose [register_service], when it returns, marks the
    object registered and whose [deregister_service] unmarks it: after a
    [create_app] that ran the registration block, the handler of either
    signal and the last exit hook are callbacks over the one new publisher,
    and any non-empty sequence of such callbacks firing one after the other
    makes exactly one [deregister_service] call. *)
Theorem registered_app_deregisters_once (w : World) (app : Flask) :
  (forall l h,
     is_registered (snd (deregister_service_method l h)) (Some l) = false) ->
  (forall l hb h,
     is_Some (h !! l) ->
     raised (fst (register_service_method l hb h)) = false ->
     is_registered (snd (register_service_method l hb h)) (Some l) = true) ->
  discovery_enabled w = true ->
  outcome_of (create_app w) = Ok app ->
  let w' := world_of (create_app w) in
  exists l,
    signal_handlers w' !! SIGTERM = Some (CbExitApp (Some l))
    /\ signal_handlers w' !! SIGINT = Some (CbExitApp (Some l))
    /\ last (atexit_hooks w') = Some (CbDestroyApp (Some l))
    /\ forall cbs,
         cbs <> [] ->
         Forall (fun cb => callback_publisher cb = Some l) cbs ->
         deregister_calls (trace (run_callbacks cbs w')) =
           S (deregister_calls (trace w)).
Proof.
  intros Hclear Hset Hen Hok w'. subst w'. revert Hok.
  rewrite create_app_cases. simpl. rewrite Hen.
  destruct (create_service_publisher _) as [[l|e] w1] eqn:Hc; [| discriminate].
  apply create_service_publisher_inv in Hc as (Hfresh & ? & ? & ? & ? & _ & ->).
  rewrite register_service_eq.
  match goal with
  | |- context [register_service_method l true ?h] =>
      pose proof (Hset l true h) as Hreg;
      destruct (register_service_method l true h) as [[u|e] h'] eqn:Hm
  end; simpl in *; [| discriminate].
  intros _. exists l.
  split; [rewrite lookup_insert_ne by discriminate; apply lookup_insert_eq |].
  split; [apply lookup_insert_eq |].
  split; [apply last_snoc |].
  intros cbs Hne Hall.
  rewrite (run_callbacks_count Hclear (Some l) cbs Hall).
  destruct cbs as [| cb rest]; [congruence |].
  simpl. rewrite Hreg; [| rewrite lookup_insert_eq; eauto | reflexivity].
  rewrite !deregister_calls_app.
  change (deregister_calls [EvTrack]) with 0%nat.
  change (deregister_calls [EvRegisterService l true]) with 0%nat.
  lia.
Qed.
End LifecycleFacts.

(** ** Error handlers, once more *)

Section HandlerEffects.
Context {B : Builtins} {X : ServerExceptions} {U : WebUtils}.


(** X14.  The only response the 404 handler ever gives is the JSON 404, and it
    gives it exactly when the request wants JSON. *)
Theorem not_found_handler_response_iff (e : PyException) (w : World) (r : Response) :
  outcome_of (not_found_handler e w) = Ok (Some r) <->
  request_wants_json (request w) = true
  /\ r = {| body := json_dumps (code_message_dict 404 "Resource not found.");
            status := 404; mimetype := "application/json" |}.
Proof.
  unfold not_found_handler. py_unfold. simpl.
  destruct (request_wants_json (request w)); simpl; split.
  - intros Hr. split; [reflexivity | congruence].
  - intros [_ ->]. reflexivity.
  - discriminate.
  - intros [? _]. discriminate.
Qed.
End HandlerEffects.

(** ** The further theorems at concrete inputs *)

Lemma healthy_registry_registers (l : loc) (hb : bool) (h : gmap loc ServicePublisher) :
  is_Some (h !! l) ->
  raised (fst (@register_service_method Fixture.healthy_registry l hb h)) = false ->
  is_registered (snd (@register_service_method Fixture.healthy_registry l hb h)) (Some l) = true.
Proof.
  intros [o Ho] _. unfold is_registered; simpl.
  rewrite lookup_alter_eq, Ho. reflexivity.
Defined.

Lemma create_service_publisher_failure_changes_nothing_witness :
  world_of (@create_service_publisher Fixture.builtins Fixture.healthy_registry
              Fixture.bare_world) = Fixture.bare_world.
Proof.
  apply (@create_service_publisher_failure_changes_nothing
           Fixture.builtins Fixture.healthy_registry Fixture.bare_world).
  vm_compute; reflexivity.
Defined.

Lemma create_service_publisher_result_witness :
  heap Fixture.prod_world !! 1%positive = None.
Proof.
  refine (proj1 (@create_service_publisher_result Fixture.builtins Fixture.healthy_registry
                   Fixture.prod_world
                   (world_of (@create_service_publisher Fixture.builtins
                                Fixture.healthy_registry Fixture.prod_world))
                   1%positive _)).
  vm_compute; reflexivity.
Defined.

Lemma create_app_discovery_disabled_witness :
  @create_app Fixture.builtins Fixture.healthy_registry Fixture.dev_world =
    (Ok (configured_app (config Fixture.dev_world)),
     set_trace (trace Fixture.dev_world ++ [EvTrack]) Fixture.dev_world).
Proof.
  apply (@create_app_discovery_disabled Fixture.builtins Fixture.healthy_registry
           Fixture.dev_world).
  left. simpl. discriminate.
Defined.

Lemma create_app_configuration_witness :
  debug (configured_app (config Fixture.dev_world)) = true <->
  ENVIRONMENT (config Fixture.dev_world) = "DEV".
Proof.
  refine (proj1 (proj2 (proj2
            (@create_app_configuration Fixture.builtins Fixture.healthy_registry
               Fixture.dev_world (configured_app (config Fixture.dev_world)) _)))).
  vm_compute; reflexivity.
Defined.

Lemma create_app_failure_arms_nothing_witness :
  signal_handlers
    (world_of (@create_app Fixture.builtins Fixture.down_registry Fixture.prod_world)) =
    signal_handlers Fixture.prod_world
  /\ atexit_hooks
       (world_of (@create_app Fixture.builtins Fixture.down_registry Fixture.prod_world)) =
       atexit_hooks Fixture.prod_world.
Proof.
  apply (@create_app_failure_arms_nothing Fixture.builtins Fixture.down_registry
           Fixture.prod_world).
  vm_compute; reflexivity.
Defined.

Lemma create_app_success_arms_hooks_witness :
  exists (l : loc) (uri url token : PyVal) (lw_env : string),
    heap Fixture.prod_world !! l = None
    /\ environ Fixture.prod_world !! "LOGISTICS_WIZARD_ENV" = Some lw_env
    /\ heap (world_of (@create_app Fixture.builtins Fixture.healthy_registry
                         Fixture.prod_world)) =
         snd (@register_service_method Fixture.healthy_registry l true
                (<[l := @ServicePublisher_new Fixture.healthy_registry
                          "lw-controller" 300 "UP" uri "http"
                          ["logistics-wizard"; "front-end"; lw_env] url token]>
                   (heap Fixture.prod_world)))
    /\ signal_handlers
         (world_of (@create_app Fixture.builtins Fixture.healthy_registry
                      Fixture.prod_world)) =
         <[SIGINT := CbExitApp (Some l)]>
           (<[SIGTERM := CbExitApp (Some l)]> (signal_handlers Fixture.prod_world))
    /\ atexit_hooks
         (world_of (@create_app Fixture.builtins Fixture.healthy_registry
                      Fixture.prod_world)) =
         (atexit_hooks Fixture.prod_world ++ [CbDestroyApp (Some l)])%list
    /\ trace
         (world_of (@create_app Fixture.builtins Fixture.healthy_registry
                      Fixture.prod_world)) =
         (trace Fixture.prod_world ++ [EvTrack; EvRegisterService l true])%list.
Proof.
  apply (@create_app_success_arms_hooks Fixture.builtins Fixture.healthy_registry
           Fixture.prod_world (configured_app (config Fixture.prod_world))).
  - vm_compute; reflexivity.
  - vm_compute; reflexivity.
Defined.

Lemma create_app_unreadable_credentials_witness :
  @create_app Fixture.builtins Fixture.healthy_registry Fixture.bare_world =
    (Raise (ExcOther "KeyError" "VCAP_SERVICES"),
     set_trace (trace Fixture.bare_world ++ [EvTrack]) Fixture.bare_world).
Proof.
  refine (proj1 (@create_app_unreadable_credentials Fixture.builtins
                   Fixture.healthy_registry Fixture.bare_world _) _).
  - vm_compute; reflexivity.
  - vm_compute; reflexivity.
Defined.

Lemma exit_app_unregistered_witness :
  @exit_app Fixture.healthy_registry (Some 1%positive) Fixture.unregistered_world =
    (Raise (ExcSystemExit 0), Fixture.unregistered_world).
Proof.
  apply (@exit_app_unregistered Fixture.healthy_registry (Some 1%positive)
           Fixture.unregistered_world).
  right. exists 1%positive, (Fixture.set_registered false Fixture.a_publisher).
  repeat split; reflexivity.
Defined.

Lemma registered_app_deregisters_once_witness :
  exists l,
    signal_handlers
      (world_of (@create_app Fixture.builtins Fixture.healthy_registry
                   Fixture.prod_world)) !! SIGTERM = Some (CbExitApp (Some l))
    /\ signal_handlers
         (world_of (@create_app Fixture.builtins Fixture.healthy_registry
                      Fixture.prod_world)) !! SIGINT = Some (CbExitApp (Some l))
    /\ last (atexit_hooks
               (world_of (@create_app Fixture.builtins Fixture.healthy_registry
                            Fixture.prod_world))) = Some (CbDestroyApp (Some l))
    /\ forall cbs,
         cbs <> [] ->
         Forall (fun cb => callback_publisher cb = Some l) cbs ->
         deregister_calls
           (trace (@run_callbacks Fixture.healthy_registry cbs
                     (world_of (@create_app Fixture.builtins Fixture.healthy_registry
                                  Fixture.prod_world)))) =
           S (deregister_calls (trace Fixture.prod_world)).
Proof.
  apply (@registered_app_deregisters_once Fixture.builtins Fixture.healthy_registry
           Fixture.prod_world (configured_app (config Fixture.prod_world))
           healthy_registry_clears healthy_registry_registers).
  - vm_compute; reflexivity.
  - vm_compute; reflexivity.
Defined.
